(** * Semantic Kernel (Python): settings resolution and the wait skill

  A shallow embedding of
  - [semantic_kernel/utils/settings.py]
    ([openai_settings_from_dot_env], [azure_openai_settings_from_dot_env]),
  - [semantic_kernel/core_skills/wait_skill.py] ([WaitSkill.wait]),
  together with the properties of the specification that concern them.

  Python values that are either [None] or a [str] are [option string];
  a [dict] is a [gmap]; a raised exception is the [Raise] outcome of a
  small error monad; the suspension performed by [asyncio.sleep] is an
  event recorded in the trace of the coroutine. *)

From Stdlib Require Import ZArith.
From Stdlib Require Import Floats.SpecFloat.
From stdpp Require Import base option list strings gmap.

Local Open Scope string_scope.

(** ** The fragment of the Python runtime used by the two files *)

Module Python.

(** The exceptions the modelled code can meet.  [KeyError] is what a
    subscript [d[k]] raises on a key that is not in the dict. *)
Inductive exception : Type :=
| AssertionError (msg : string)
| ValueError (msg : string)
| KeyError (key : string).

(** Outcome of evaluating a piece of code: a value, or a raised exception. *)
Inductive result (A : Type) : Type :=
| Return (a : A)
| Raise (e : exception).
Global Arguments Return {A} a.
Global Arguments Raise {A} e.

Global Instance result_ret : MRet result := λ A a, Return a.

Global Instance result_bind : MBind result := λ A B k r,
  match r with
  | Return a => k a
  | Raise e => Raise e
  end.

(** [assert cond, msg], with assertions enabled ([__debug__] is [True],
    the interpreter's default mode). *)
Definition assert_ (cond : bool) (msg : string) : result unit :=
  if cond then Return tt else Raise (AssertionError msg).

(** [v is not None] *)
Definition is_not_None (v : option string) : bool :=
  match v with
  | Some _ => true
  | None => false
  end.

(** Truth value of a [None]-or-[str] object: [None] and [""] are false. *)
Definition truthy (v : option string) : bool :=
  match v with
  | None => false
  | Some EmptyString => false
  | Some (String _ _) => true
  end.

(** [a or b] *)
Definition or_ (a b : option string) : option string :=
  if truthy a then a else b.

(** [d.get(key, default)] on a dict whose values are [None] or a [str]
    (the type of what [dotenv_values] returns: a key written without
    [=] in the file is bound to [None]). *)
Definition get (d : gmap string (option string)) (key : string)
    (default : option string) : option string :=
  match d !! key with
  | Some v => v
  | None => default
  end.

(** [try: body / except ValueError: handler] *)
Definition try_except_ValueError {A : Type}
    (body handler : result A) : result A :=
  match body with
  | Raise (ValueError _) => handler
  | other => other
  end.

(** A Python number as far as [wait] is concerned: the [int] literal
    [0] and the [float] returned by [float(...)] meet in [max].
    Floats are IEEE 754 binary64 values, as [spec_float]. *)
Inductive number : Type :=
| Int (z : Z)
| Float (f : spec_float).

(** [0 > x] for the [int] [0] and a [float] [x]: the comparison is by
    exact value, and is false when [x] is NaN. *)
Definition int0_gt (x : spec_float) : bool :=
  SFltb x (S754_zero false).

(** [max(x, 0)] for a [float] [x]: [max] keeps its first argument and
    replaces it by a later one only if [later > kept]. *)
Definition max_0 (x : spec_float) : number :=
  if int0_gt x then Int 0 else Float x.

(** [d >= 0] for a number [d] *)
Definition ge_0 (d : number) : bool :=
  match d with
  | Int z => (0 <=? z)%Z
  | Float f => SFleb (S754_zero false) f
  end.

(** [math.isnan] *)
Definition isnan (x : spec_float) : bool :=
  match x with
  | S754_nan => true
  | _ => false
  end.

End Python.

Import Python.

(** ** semantic_kernel/utils/settings.py *)

Module settings.

(** Both functions start with [config = dotenv_values(".env")]; the
    dict read from the file is the argument [config] here. *)

Definition openai_settings_from_dot_env
    (config : gmap string (option string))
    : result (option string * option string) :=
  let api_key := get config "OPENAI_API_KEY" None in
  let org_id := get config "OPENAI_ORG_ID" None in
  assert_ (is_not_None api_key) "OpenAI API key not found in .env file";;
  mret (api_key, org_id).

Definition azure_openai_settings_from_dot_env
    (config : gmap string (option string)) (include_deployment : bool)
    : result (option string * option string * option string) :=
  let deployment := get config "AZURE_OPENAI_DEPLOYMENT_NAME" None in
  let api_key := get config "AZURE_OPENAI_API_KEY" None in
  let endpoint := get config "AZURE_OPENAI_ENDPOINT" None in
  (if include_deployment
   then assert_ (is_not_None deployment)
          "Azure OpenAI deployment name not found in .env file"
   else mret tt);;
  assert_ (is_not_None api_key)
    "Azure OpenAI API key not found in .env file";;
  assert_ (is_not_None endpoint)
    "Azure OpenAI endpoint not found in .env file";;
  mret (or_ deployment (Some ""), api_key, endpoint).

End settings.

(** ** semantic_kernel/core_skills/wait_skill.py *)

Module wait_skill.

(** What a coroutine does to its caller: it awaits [asyncio.sleep]. *)
Inductive event : Type :=
| Sleep (delay : number).

(** A run of a coroutine: the awaits it performed, in order, and how it
    ended. *)
Definition run (A : Type) : Type := (list event * result A)%type.

Global Instance run_ret : MRet run := λ A a, ([], Return a).

Global Instance run_bind : MBind run := λ A B k r,
  match r with
  | (tr, Return a) => let '(tr', r') := k a in ((tr ++ tr')%list, r')
  | (tr, Raise e) => (tr, Raise e)
  end.

(** Code that does not await, run inside a coroutine. *)
Definition pure_ {A : Type} (r : result A) : run A := ([], r).

(** [await asyncio.sleep(delay)]: the call is recorded with the delay it
    is given.  What the properties below use is this delay; the run is
    continued as for a sleep that completes. *)
Definition asyncio_sleep (delay : number) : run unit :=
  ([Sleep delay], Return tt).

Section WaitSkill.

(** The builtin [float] applied to a [str]: it returns a binary64
    value or raises. *)
Variable float : string → result spec_float.

Definition wait (seconds_text : string) : run unit :=
  seconds ← pure_
    (try_except_ValueError
       (x ← float seconds_text; mret (max_0 x))
       (Raise (ValueError "seconds text must be a number")));
  asyncio_sleep seconds.

End WaitSkill.

(** Values of [float] on a few literals, to run [wait] on concrete
    inputs: NaN, the infinities, zero, [-3.0] and [5.0]; any other
    string is treated as malformed. *)
Definition float_sample (s : string) : result spec_float :=
  if decide (s = "nan") then Return S754_nan
  else if decide (s = "inf") then Return (S754_infinity false)
  else if decide (s = "-inf") then Return (S754_infinity true)
  else if decide (s = "0") then Return (S754_zero false)
  else if decide (s = "-3") then
    Return (S754_finite true 6755399441055744 (-51))
  else if decide (s = "5") then
    Return (S754_finite false 5629499534213120 (-50))
  else Raise (ValueError ("could not convert string to float: " ++ s)).

End wait_skill.


(** ** Configuration sources used to run the resolvers on concrete inputs *)

Module samples.

(** [OPENAI_API_KEY=sk-test] and [OPENAI_ORG_ID=org-1] *)
Definition openai_full : gmap string (option string) :=
  {[ "OPENAI_API_KEY" := Some "sk-test"; "OPENAI_ORG_ID" := Some "org-1" ]}.

(** [OPENAI_API_KEY=] (set to the empty string), no organization id *)
Definition openai_empty_key : gmap string (option string) :=
  {[ "OPENAI_API_KEY" := Some "" ]}.

(** Only [OPENAI_ORG_ID=org-1]: the api key is not in the file *)
Definition openai_org_only : gmap string (option string) :=
  {[ "OPENAI_ORG_ID" := Some "org-1" ]}.

(** All three Azure keys set *)
Definition azure_full : gmap string (option string) :=
  {[ "AZURE_OPENAI_DEPLOYMENT_NAME" := Some "gpt-35";
     "AZURE_OPENAI_API_KEY" := Some "az-key";
     "AZURE_OPENAI_ENDPOINT" := Some "https://x.openai.azure.com/" ]}.

(** Api key and endpoint set, no deployment name *)
Definition azure_no_deployment : gmap string (option string) :=
  {[ "AZURE_OPENAI_API_KEY" := Some "az-key";
     "AZURE_OPENAI_ENDPOINT" := Some "https://x.openai.azure.com/" ]}.

(** Api key and endpoint set, [AZURE_OPENAI_DEPLOYMENT_NAME=] empty *)
Definition azure_empty_deployment : gmap string (option string) :=
  {[ "AZURE_OPENAI_DEPLOYMENT_NAME" := Some "";
     "AZURE_OPENAI_API_KEY" := Some "az-key";
     "AZURE_OPENAI_ENDPOINT" := Some "https://x.openai.azure.com/" ]}.

(** Deployment name and endpoint set, no api key *)
Definition azure_no_api_key : gmap string (option string) :=
  {[ "AZURE_OPENAI_DEPLOYMENT_NAME" := Some "gpt-35";
     "AZURE_OPENAI_ENDPOINT" := Some "https://x.openai.azure.com/" ]}.

(** Deployment name and api key set, no endpoint *)
Definition azure_no_endpoint : gmap string (option string) :=
  {[ "AZURE_OPENAI_DEPLOYMENT_NAME" := Some "gpt-35";
     "AZURE_OPENAI_API_KEY" := Some "az-key" ]}.

(** [OPENAI_API_KEY] written without [=] (bound to [None] by
    [dotenv_values]) and [OPENAI_ORG_ID=org-1] *)
Definition openai_key_without_value : gmap string (option string) :=
  {[ "OPENAI_API_KEY" := None; "OPENAI_ORG_ID" := Some "org-1" ]}.

(** One file holding the settings of both providers *)
Definition both_providers : gmap string (option string) :=
  openai_full ∪ azure_full.

(** Only [AZURE_OPENAI_DEPLOYMENT_NAME=] (the empty string): neither api
    key nor endpoint *)
Definition azure_empty_deployment_only : gmap string (option string) :=
  {[ "AZURE_OPENAI_DEPLOYMENT_NAME" := Some "" ]}.

(** The three Azure keys set to the empty string *)
Definition azure_all_empty : gmap string (option string) :=
  {[ "AZURE_OPENAI_DEPLOYMENT_NAME" := Some "";
     "AZURE_OPENAI_API_KEY" := Some "";
     "AZURE_OPENAI_ENDPOINT" := Some "" ]}.

End samples.

Import settings wait_skill samples.

(** ** The dict lookup *)

Section Lookup.

Context (d : gmap string (option string)) (key : string).

Lemma get_absent_iff :
  get d key None = None ↔ d !! key = None ∨ d !! key = Some None.
Proof.
  unfold get. destruct (d !! key) as [[v|]|]; intuition congruence.
Qed.

Lemma get_present_iff (v : string) :
  get d key None = Some v ↔ d !! key = Some (Some v).
Proof.
  unfold get. destruct (d !! key) as [[w|]|]; naive_solver.
Qed.

Lemma get_missing_key (default : option string) :
  d !! key = None → get d key default = default.
Proof. unfold get. intros Hd. by rewrite Hd. Qed.

End Lookup.

(** [s or ""] is [s] for every string [s], the empty one included. *)
Lemma or_empty_present (s : string) : or_ (Some s) (Some "") = Some s.
Proof. by destruct s. Qed.

Lemma or_empty_absent : or_ None (Some "") = Some "".
Proof. reflexivity. Qed.

(** Runs a resolver once the lookups it performs are known. *)
Ltac resolve :=
  unfold openai_settings_from_dot_env, azure_openai_settings_from_dot_env;
  repeat match goal with
         | H : get _ _ None = _ |- _ => rewrite H
         end;
  cbv [mbind mret result_bind result_ret assert_ is_not_None];
  rewrite ?or_empty_present, ?or_empty_absent.

(** ** Properties of [openai_settings_from_dot_env] *)

(** The lookup of the api key decides the outcome. *)
Lemma openai_outcome
    (config : gmap string (option string)) :
  openai_settings_from_dot_env config
  = Raise (AssertionError "OpenAI API key not found in .env file")
  ∨ ∃ k : string,
      openai_settings_from_dot_env config
      = Return (Some k, get config "OPENAI_ORG_ID" None).
Proof.
  destruct (get config "OPENAI_API_KEY" None) as [k|] eqn:Hkey.
  - right. exists k. by resolve.
  - left. by resolve.
Qed.

(** C1, as the code has it: the resolver fails, with the assertion error
    of the missing api key, when [OPENAI_API_KEY] is absent, and so on the
    empty configuration source; an api key that is present is accepted
    whatever its value, the empty string included; the organization id is
    returned as found and its absence is never an error. *)
Theorem openai_fails_when_api_key_absent (config : gmap string (option string)) :
  (get config "OPENAI_API_KEY" None = None →
   openai_settings_from_dot_env config
   = Raise (AssertionError "OpenAI API key not found in .env file"))
  ∧ (∀ k : string, get config "OPENAI_API_KEY" None = Some k →
     openai_settings_from_dot_env config
     = Return (Some k, get config "OPENAI_ORG_ID" None))
  ∧ openai_settings_from_dot_env ∅
    = Raise (AssertionError "OpenAI API key not found in .env file").
Proof.
  split; [|split].
  - intros Hkey. by resolve.
  - intros k Hkey. by resolve.
  - reflexivity.
Qed.

Lemma openai_fails_when_api_key_absent_witness :
  openai_settings_from_dot_env openai_org_only
  = Raise (AssertionError "OpenAI API key not found in .env file")
  ∧ openai_settings_from_dot_env openai_empty_key = Return (Some "", None).
Proof.
  destruct (openai_fails_when_api_key_absent openai_org_only) as [Habs _].
  destruct (openai_fails_when_api_key_absent openai_empty_key) as (_ & Hpres & _).
  split.
  - apply Habs. vm_compute. reflexivity.
  - apply (Hpres ""). vm_compute. reflexivity.
Defined.

(** C1, as the claim states it, fails: with [OPENAI_API_KEY] set to the
    empty string the resolver does not fail, it returns the empty key. *)
Lemma openai_empty_api_key_is_accepted :
  get openai_empty_key "OPENAI_API_KEY" None = Some ""
  ∧ openai_settings_from_dot_env openai_empty_key = Return (Some "", None).
Proof. split; vm_compute; reflexivity. Qed.

(** C2: when [OPENAI_API_KEY] is present and non-empty the resolver
    succeeds; it returns that api key and the value of [OPENAI_ORG_ID],
    which is [None] when the source does not set it. *)
Theorem openai_returns_exact_values
    (config : gmap string (option string)) (k : string) :
  get config "OPENAI_API_KEY" None = Some k →
  k ≠ "" →
  openai_settings_from_dot_env config
  = Return (Some k, get config "OPENAI_ORG_ID" None)
  ∧ (∀ o : string, config !! "OPENAI_ORG_ID" = Some (Some o) →
     openai_settings_from_dot_env config = Return (Some k, Some o))
  ∧ (config !! "OPENAI_ORG_ID" = None →
     openai_settings_from_dot_env config = Return (Some k, None)).
Proof.
  intros Hkey _.
  assert (openai_settings_from_dot_env config
          = Return (Some k, get config "OPENAI_ORG_ID" None)) as Hres
    by by resolve.
  split; [done|split].
  - intros o Ho. apply get_present_iff in Ho. by rewrite Hres, Ho.
  - intros Ho. by rewrite Hres, (get_missing_key _ _ _ Ho).
Qed.

Lemma openai_returns_exact_values_witness :
  openai_settings_from_dot_env openai_full
  = Return (Some "sk-test", Some "org-1").
Proof.
  destruct (openai_returns_exact_values openai_full "sk-test") as (_ & Horg & _).
  - vm_compute. reflexivity.
  - discriminate.
  - apply Horg. vm_compute. reflexivity.
Defined.

(** ** Properties of [azure_openai_settings_from_dot_env] *)

(** The three lookups decide the outcome: the complete case analysis of
    the function, in the order of its assertions. *)
Lemma azure_outcome (config : gmap string (option string)) (incl : bool) :
  azure_openai_settings_from_dot_env config incl
  = match get config "AZURE_OPENAI_DEPLOYMENT_NAME" None,
          get config "AZURE_OPENAI_API_KEY" None,
          get config "AZURE_OPENAI_ENDPOINT" None with
    | None, _, _ =>
        if incl
        then Raise (AssertionError
                      "Azure OpenAI deployment name not found in .env file")
        else match get config "AZURE_OPENAI_API_KEY" None,
                   get config "AZURE_OPENAI_ENDPOINT" None with
             | None, _ =>
                 Raise (AssertionError
                          "Azure OpenAI API key not found in .env file")
             | Some _, None =>
                 Raise (AssertionError
                          "Azure OpenAI endpoint not found in .env file")
             | Some k, Some e => Return (Some "", Some k, Some e)
             end
    | Some _, None, _ =>
        Raise (AssertionError "Azure OpenAI API key not found in .env file")
    | Some _, Some _, None =>
        Raise (AssertionError "Azure OpenAI endpoint not found in .env file")
    | Some d, Some k, Some e => Return (Some d, Some k, Some e)
    end.
Proof.
  unfold azure_openai_settings_from_dot_env.
  destruct (get config "AZURE_OPENAI_DEPLOYMENT_NAME" None) as [d|];
    destruct (get config "AZURE_OPENAI_API_KEY" None) as [k|];
    destruct (get config "AZURE_OPENAI_ENDPOINT" None) as [e|];
    destruct incl; try reflexivity;
    cbv [mbind mret result_bind result_ret assert_ is_not_None];
    by rewrite or_empty_present.
Qed.

(** Rewrites with [azure_outcome] and the known lookups. *)
Ltac azure :=
  rewrite azure_outcome;
  repeat match goal with
         | H : get _ _ None = _ |- _ => rewrite H
         end;
  try reflexivity.

(** C3, as the code has it: with [include_deployment=True] the resolver
    fails as soon as one of the three keys is absent, and when the three
    are present it succeeds and returns the three values unchanged; a key
    set to the empty string is present. *)
Theorem azure_required_deployment_all_or_fail
    (config : gmap string (option string)) :
  (get config "AZURE_OPENAI_DEPLOYMENT_NAME" None = None
   ∨ get config "AZURE_OPENAI_API_KEY" None = None
   ∨ get config "AZURE_OPENAI_ENDPOINT" None = None →
   ∃ msg : string,
     azure_openai_settings_from_dot_env config true
     = Raise (AssertionError msg))
  ∧ (∀ d k e : string,
       get config "AZURE_OPENAI_DEPLOYMENT_NAME" None = Some d →
       get config "AZURE_OPENAI_API_KEY" None = Some k →
       get config "AZURE_OPENAI_ENDPOINT" None = Some e →
       azure_openai_settings_from_dot_env config true
       = Return (Some d, Some k, Some e)).
Proof.
  split.
  - rewrite azure_outcome.
    destruct (get config "AZURE_OPENAI_DEPLOYMENT_NAME" None) as [d|];
      destruct (get config "AZURE_OPENAI_API_KEY" None) as [k|];
      destruct (get config "AZURE_OPENAI_ENDPOINT" None) as [e|];
      intros [H|[H|H]]; try discriminate H; eauto.
  - intros d k e Hd Hk He. by azure.
Qed.

Lemma azure_required_deployment_all_or_fail_witness :
  (∃ msg : string,
     azure_openai_settings_from_dot_env azure_no_endpoint true
     = Raise (AssertionError msg))
  ∧ azure_openai_settings_from_dot_env azure_full true
    = Return (Some "gpt-35", Some "az-key",
              Some "https://x.openai.azure.com/").
Proof.
  destruct (azure_required_deployment_all_or_fail azure_no_endpoint)
    as [Hfail _].
  destruct (azure_required_deployment_all_or_fail azure_full) as [_ Hok].
  split.
  - apply Hfail. right. right. vm_compute. reflexivity.
  - apply Hok; vm_compute; reflexivity.
Defined.

(** C3, as the claim states it, fails: with the deployment name set to
    the empty string (and the other two keys set) the resolver called with
    [include_deployment=True] does not fail. *)
Lemma azure_empty_deployment_is_accepted :
  get azure_empty_deployment "AZURE_OPENAI_DEPLOYMENT_NAME" None = Some ""
  ∧ azure_openai_settings_from_dot_env azure_empty_deployment true
    = Return (Some "", Some "az-key", Some "https://x.openai.azure.com/").
Proof. split; vm_compute; reflexivity. Qed.

(** C4: with [include_deployment=False], no deployment name, and the api
    key and endpoint present, the resolver succeeds and the deployment
    name it returns is the string [""], not [None]. *)
Theorem azure_absent_deployment_is_empty_string
    (config : gmap string (option string)) (k e : string) :
  get config "AZURE_OPENAI_DEPLOYMENT_NAME" None = None →
  get config "AZURE_OPENAI_API_KEY" None = Some k →
  get config "AZURE_OPENAI_ENDPOINT" None = Some e →
  azure_openai_settings_from_dot_env config false
  = Return (Some "", Some k, Some e).
Proof. intros Hd Hk He. by azure. Qed.

Lemma azure_absent_deployment_is_empty_string_witness :
  azure_openai_settings_from_dot_env azure_no_deployment false
  = Return (Some "", Some "az-key", Some "https://x.openai.azure.com/").
Proof.
  apply (azure_absent_deployment_is_empty_string azure_no_deployment);
    vm_compute; reflexivity.
Defined.

(** C5: whatever [include_deployment] is, the resolver fails with an
    assertion error when the api key is absent, and when the endpoint is
    absent; with the flag off the error is the one of the api key, or of
    the endpoint when the api key is there. *)
Theorem azure_api_key_and_endpoint_always_required
    (config : gmap string (option string)) (incl : bool) :
  get config "AZURE_OPENAI_API_KEY" None = None
  ∨ get config "AZURE_OPENAI_ENDPOINT" None = None →
  (∃ msg : string,
     azure_openai_settings_from_dot_env config incl
     = Raise (AssertionError msg))
  ∧ (get config "AZURE_OPENAI_API_KEY" None = None →
     azure_openai_settings_from_dot_env config false
     = Raise (AssertionError "Azure OpenAI API key not found in .env file"))
  ∧ (is_Some (get config "AZURE_OPENAI_API_KEY" None) →
     azure_openai_settings_from_dot_env config false
     = Raise (AssertionError "Azure OpenAI endpoint not found in .env file")).
Proof.
  intros Habs. rewrite !azure_outcome.
  destruct (get config "AZURE_OPENAI_DEPLOYMENT_NAME" None) as [d|];
    destruct (get config "AZURE_OPENAI_API_KEY" None) as [k|];
    destruct (get config "AZURE_OPENAI_ENDPOINT" None) as [e|];
    destruct incl;
    try (destruct Habs as [Habs|Habs]; discriminate Habs);
    (split; [eauto|split]; [intros H|intros [? H]]; done).
Qed.

Lemma azure_api_key_and_endpoint_always_required_witness :
  (∃ msg : string,
     azure_openai_settings_from_dot_env azure_no_api_key false
     = Raise (AssertionError msg))
  ∧ (∃ msg : string,
       azure_openai_settings_from_dot_env azure_no_endpoint true
       = Raise (AssertionError msg)).
Proof.
  split.
  - apply (azure_api_key_and_endpoint_always_required azure_no_api_key false).
    left. vm_compute. reflexivity.
  - apply (azure_api_key_and_endpoint_always_required azure_no_endpoint true).
    right. vm_compute. reflexivity.
Defined.

(** C6, as the code has it: with [include_deployment=True] the checks
    run in the order deployment name, api key, endpoint, and the first
    absent field in that order is the one the assertion error reports,
    whatever else is missing; on the empty source it is the deployment
    name.  A field that is present, the empty string included, passes its
    check and is not reported. *)
Theorem azure_validation_is_fail_fast
    (config : gmap string (option string)) :
  (get config "AZURE_OPENAI_DEPLOYMENT_NAME" None = None →
   azure_openai_settings_from_dot_env config true
   = Raise (AssertionError
              "Azure OpenAI deployment name not found in .env file"))
  ∧ (is_Some (get config "AZURE_OPENAI_DEPLOYMENT_NAME" None) →
     get config "AZURE_OPENAI_API_KEY" None = None →
     azure_openai_settings_from_dot_env config true
     = Raise (AssertionError "Azure OpenAI API key not found in .env file"))
  ∧ (is_Some (get config "AZURE_OPENAI_DEPLOYMENT_NAME" None) →
     is_Some (get config "AZURE_OPENAI_API_KEY" None) →
     get config "AZURE_OPENAI_ENDPOINT" None = None →
     azure_openai_settings_from_dot_env config true
     = Raise (AssertionError "Azure OpenAI endpoint not found in .env file"))
  ∧ azure_openai_settings_from_dot_env ∅ true
    = Raise (AssertionError
               "Azure OpenAI deployment name not found in .env file").
Proof.
  repeat split.
  - intros Hd. by azure.
  - intros [d Hd] Hk. by azure.
  - intros [d Hd] [k Hk] He. by azure.
Qed.

Lemma azure_validation_is_fail_fast_witness :
  azure_openai_settings_from_dot_env openai_full true
  = Raise (AssertionError
             "Azure OpenAI deployment name not found in .env file")
  ∧ azure_openai_settings_from_dot_env azure_no_api_key true
    = Raise (AssertionError "Azure OpenAI API key not found in .env file")
  ∧ azure_openai_settings_from_dot_env azure_no_endpoint true
    = Raise (AssertionError "Azure OpenAI endpoint not found in .env file").
Proof.
  destruct (azure_validation_is_fail_fast openai_full) as (H1 & _).
  destruct (azure_validation_is_fail_fast azure_no_api_key) as (_ & H2 & _).
  destruct (azure_validation_is_fail_fast azure_no_endpoint)
    as (_ & _ & H3 & _).
  split; [|split].
  - apply H1. vm_compute. reflexivity.
  - apply H2; [exists "gpt-35"|]; vm_compute; reflexivity.
  - apply H3; [exists "gpt-35"|exists "az-key"|]; vm_compute; reflexivity.
Defined.

(** C6, as the claim states it, fails: the rules it orders ask for a
    value that is present and non-empty, but an empty value violates no
    check.  With the deployment name set to the empty string and neither
    api key nor endpoint, the error reports the api key, not the
    deployment name; with the three keys set to the empty string nothing
    is reported at all. *)
Lemma azure_empty_deployment_is_not_reported :
  get azure_empty_deployment_only "AZURE_OPENAI_DEPLOYMENT_NAME" None
  = Some ""
  ∧ get azure_empty_deployment_only "AZURE_OPENAI_API_KEY" None = None
  ∧ get azure_empty_deployment_only "AZURE_OPENAI_ENDPOINT" None = None
  ∧ azure_openai_settings_from_dot_env azure_empty_deployment_only true
    = Raise (AssertionError "Azure OpenAI API key not found in .env file")
  ∧ azure_openai_settings_from_dot_env azure_empty_deployment_only true
    ≠ Raise (AssertionError
               "Azure OpenAI deployment name not found in .env file")
  ∧ azure_openai_settings_from_dot_env azure_all_empty true
    = Return (Some "", Some "", Some "").
Proof.
  repeat split; try (vm_compute; reflexivity).
  vm_compute. discriminate.
Qed.

(** C9: with [include_deployment=False] a deployment name that is
    present and non-empty is never dropped: every result the resolver
    returns carries it, and the resolver does return one, with the three
    exact values, when the api key and the endpoint are present. *)
Theorem azure_present_deployment_is_kept
    (config : gmap string (option string)) (d : string) :
  get config "AZURE_OPENAI_DEPLOYMENT_NAME" None = Some d →
  d ≠ "" →
  (∀ dep key endpoint : option string,
     azure_openai_settings_from_dot_env config false
     = Return (dep, key, endpoint) →
     dep = Some d)
  ∧ (∀ k e : string,
       get config "AZURE_OPENAI_API_KEY" None = Some k →
       get config "AZURE_OPENAI_ENDPOINT" None = Some e →
       azure_openai_settings_from_dot_env config false
       = Return (Some d, Some k, Some e)).
Proof.
  intros Hd _. split.
  - intros dep key endpoint. rewrite azure_outcome, Hd.
    destruct (get config "AZURE_OPENAI_API_KEY" None) as [k|];
      [destruct (get config "AZURE_OPENAI_ENDPOINT" None) as [e|]|];
      congruence.
  - intros k e Hk He. by azure.
Qed.

Lemma azure_present_deployment_is_kept_witness :
  azure_openai_settings_from_dot_env azure_full false
  = Return (Some "gpt-35", Some "az-key", Some "https://x.openai.azure.com/").
Proof.
  destruct (azure_present_deployment_is_kept azure_full "gpt-35")
    as [_ Hok].
  - vm_compute. reflexivity.
  - discriminate.
  - apply Hok; vm_compute; reflexivity.
Defined.

(** C10: the lookups of both resolvers are total, a key that is not in
    the source yields [None] and no [KeyError]; so a resolver either
    returns or raises one of its own assertion errors, and nothing
    else. *)
Theorem resolvers_raise_only_their_assertions
    (config : gmap string (option string)) :
  (∀ key : string, config !! key = None → get config key None = None)
  ∧ ((∃ r, openai_settings_from_dot_env config = Return r)
     ∨ openai_settings_from_dot_env config
       = Raise (AssertionError "OpenAI API key not found in .env file"))
  ∧ (∀ incl : bool,
       (∃ r, azure_openai_settings_from_dot_env config incl = Return r)
       ∨ azure_openai_settings_from_dot_env config incl
         = Raise (AssertionError
                    "Azure OpenAI deployment name not found in .env file")
       ∨ azure_openai_settings_from_dot_env config incl
         = Raise (AssertionError
                    "Azure OpenAI API key not found in .env file")
       ∨ azure_openai_settings_from_dot_env config incl
         = Raise (AssertionError
                    "Azure OpenAI endpoint not found in .env file")).
Proof.
  split; [|split].
  - intros key. apply get_missing_key.
  - destruct (openai_outcome config) as [H|[k H]];
      rewrite H; eauto.
  - intros incl. rewrite azure_outcome.
    destruct (get config "AZURE_OPENAI_DEPLOYMENT_NAME" None) as [d|];
      destruct (get config "AZURE_OPENAI_API_KEY" None) as [k|];
      destruct (get config "AZURE_OPENAI_ENDPOINT" None) as [e|];
      destruct incl; eauto.
Qed.

Lemma resolvers_raise_only_their_assertions_witness :
  get azure_full "OPENAI_API_KEY" None = None.
Proof.
  destruct (resolvers_raise_only_their_assertions azure_full) as [Hget _].
  apply Hget. vm_compute. reflexivity.
Defined.

(** ** Properties of [WaitSkill.wait] *)

Section Wait.

Context (float : string → result spec_float).

(** The value [float] gives decides the run of [wait]. *)
Lemma wait_parsed (s : string) (x : spec_float) :
  float s = Return x →
  wait float s = ([Sleep (max_0 x)], Return tt).
Proof. unfold wait. intros Hx. by rewrite Hx. Qed.

Lemma max_0_ge_0 (x : spec_float) : isnan x = false → ge_0 (max_0 x) = true.
Proof. by destruct x as [[]|[]| |[] m e]. Qed.

Lemma max_0_negative (x : spec_float) : int0_gt x = true → max_0 x = Int 0.
Proof. unfold max_0. by intros Hneg; rewrite Hneg. Qed.

Lemma max_0_not_negative (x : spec_float) :
  int0_gt x = false → max_0 x = Float x.
Proof. unfold max_0. by intros Hpos; rewrite Hpos. Qed.

(** C7: when [float] rejects the text with a [ValueError], [wait] raises
    the [ValueError] whose message is "seconds text must be a number",
    and its trace is empty: no sleep was started. *)
Theorem wait_rejects_unparsable_text (s msg : string) :
  float s = Raise (ValueError msg) →
  wait float s = ([], Raise (ValueError "seconds text must be a number")).
Proof. unfold wait. intros Herr. by rewrite Herr. Qed.

(** C8 does not hold on the text "nan": when [float] returns NaN, [wait]
    raises nothing and sleeps for [max(nan, 0)], which is NaN itself
    since [0 > nan] is false; this duration is neither [0] nor [>= 0]. *)
Theorem wait_nan_is_not_clamped (s : string) :
  float s = Return S754_nan →
  wait float s = ([Sleep (Float S754_nan)], Return tt)
  ∧ ge_0 (Float S754_nan) = false.
Proof. intros Hnan. split; [|done]. by rewrite (wait_parsed _ _ Hnan). Qed.

(** For every text that [float] parses to a value other than NaN, [wait]
    raises nothing and sleeps once, for a duration that is [>= 0]: the
    [int] [0] when the value is negative, the value itself otherwise. *)
Theorem wait_clamps_parsed_numbers (s : string) (x : spec_float) :
  float s = Return x →
  isnan x = false →
  ∃ d : number,
    wait float s = ([Sleep d], Return tt)
    ∧ ge_0 d = true
    ∧ (int0_gt x = true → d = Int 0)
    ∧ (int0_gt x = false → d = Float x).
Proof.
  intros Hx Hnum. exists (max_0 x). repeat split.
  - by apply wait_parsed.
  - by apply max_0_ge_0.
  - apply max_0_negative.
  - apply max_0_not_negative.
Qed.

End Wait.

Lemma wait_rejects_unparsable_text_witness :
  wait float_sample "abc"
  = ([], Raise (ValueError "seconds text must be a number")).
Proof.
  apply (wait_rejects_unparsable_text float_sample "abc"
           "could not convert string to float: abc").
  vm_compute. reflexivity.
Defined.

Lemma wait_nan_is_not_clamped_witness :
  wait float_sample "nan" = ([Sleep (Float S754_nan)], Return tt)
  ∧ ge_0 (Float S754_nan) = false.
Proof.
  apply (wait_nan_is_not_clamped float_sample "nan").
  vm_compute. reflexivity.
Defined.

Lemma wait_clamps_parsed_numbers_witness :
  ∃ d : number,
    wait float_sample "-3" = ([Sleep d], Return tt)
    ∧ ge_0 d = true
    ∧ (int0_gt (S754_finite true 6755399441055744 (-51)) = true → d = Int 0)
    ∧ (int0_gt (S754_finite true 6755399441055744 (-51)) = false →
       d = Float (S754_finite true 6755399441055744 (-51))).
Proof.
  apply (wait_clamps_parsed_numbers float_sample "-3"
           (S754_finite true 6755399441055744 (-51)));
    vm_compute; reflexivity.
Defined.

(** ** Further properties of the resolvers *)

(** [get] reads one binding of the dict and nothing else. *)
Lemma get_ext (c1 c2 : gmap string (option string)) (key : string)
    (default : option string) :
  c1 !! key = c2 !! key → get c1 key default = get c2 key default.
Proof. unfold get. intros Heq. by rewrite Heq. Qed.

Lemma get_insert_eq (c : gmap string (option string)) (key : string)
    (v default : option string) :
  get (<[key := v]> c) key default = v.
Proof. unfold get. by rewrite lookup_insert_eq. Qed.

Lemma get_insert_ne (c : gmap string (option string)) (key key' : string)
    (v default : option string) :
  key ≠ key' → get (<[key := v]> c) key' default = get c key' default.
Proof. intros Hne. apply get_ext. by rewrite lookup_insert_ne. Qed.

Lemma get_delete_eq (c : gmap string (option string)) (key : string)
    (default : option string) :
  get (delete key c) key default = default.
Proof. unfold get. by rewrite lookup_delete_eq. Qed.

Lemma get_delete_ne (c : gmap string (option string)) (key key' : string)
    (default : option string) :
  key ≠ key' → get (delete key c) key' default = get c key' default.
Proof. intros Hne. apply get_ext. by rewrite lookup_delete_ne. Qed.

(** The outcome of the OpenAI resolver as a function of its lookups. *)
Lemma openai_outcome_by_key (config : gmap string (option string)) :
  openai_settings_from_dot_env config
  = match get config "OPENAI_API_KEY" None with
    | Some k => Return (Some k, get config "OPENAI_ORG_ID" None)
    | None => Raise (AssertionError "OpenAI API key not found in .env file")
    end.
Proof.
  destruct (get config "OPENAI_API_KEY" None) as [k|] eqn:Hkey; by resolve.
Qed.

(** X2: the OpenAI resolver succeeds exactly when the source binds
    [OPENAI_API_KEY] to a string; a key listed without a value (bound to
    [None]) makes it fail like a key that is not there. *)
Theorem openai_succeeds_iff_api_key_has_value
    (config : gmap string (option string)) :
  ((∃ r, openai_settings_from_dot_env config = Return r)
   ↔ ∃ k : string, config !! "OPENAI_API_KEY" = Some (Some k))
  ∧ (config !! "OPENAI_API_KEY" = Some None →
     openai_settings_from_dot_env config
     = Raise (AssertionError "OpenAI API key not found in .env file")).
Proof.
  rewrite openai_outcome_by_key. split; [split|].
  - intros [r Hr].
    destruct (get config "OPENAI_API_KEY" None) as [k|] eqn:Hkey; [|done].
    exists k. by apply get_present_iff.
  - intros [k Hk]. apply get_present_iff in Hk. rewrite Hk. eauto.
  - intros Hnone.
    assert (get config "OPENAI_API_KEY" None = None) as Habs
      by (apply get_absent_iff; by right).
    by rewrite Habs.
Qed.

Lemma openai_succeeds_iff_api_key_has_value_witness :
  openai_settings_from_dot_env openai_key_without_value
  = Raise (AssertionError "OpenAI API key not found in .env file").
Proof.
  destruct (openai_succeeds_iff_api_key_has_value openai_key_without_value)
    as [_ Hnone].
  apply Hnone. vm_compute. reflexivity.
Defined.

(** X3: whatever the OpenAI resolver returns comes from the source: the
    api key is the string bound to [OPENAI_API_KEY], never [None], and
    the organization id is what the lookup of [OPENAI_ORG_ID] gives. *)
Theorem openai_result_comes_from_source
    (config : gmap string (option string)) (a o : option string) :
  openai_settings_from_dot_env config = Return (a, o) →
  (∃ k : string, a = Some k ∧ config !! "OPENAI_API_KEY" = Some (Some k))
  ∧ o = get config "OPENAI_ORG_ID" None.
Proof.
  rewrite openai_outcome_by_key.
  destruct (get config "OPENAI_API_KEY" None) as [k|] eqn:Hkey; [|done].
  intros [= <- <-]. split; [|done].
  exists k. split; [done|]. by apply get_present_iff.
Qed.

Lemma openai_result_comes_from_source_witness :
  (∃ k : string,
     Some "sk-test" = Some k
     ∧ openai_full !! "OPENAI_API_KEY" = Some (Some k))
  ∧ Some "org-1" = get openai_full "OPENAI_ORG_ID" None.
Proof.
  apply (openai_result_comes_from_source openai_full).
  vm_compute. reflexivity.
Defined.

(** X4: the OpenAI resolver reads its two keys only: two sources that
    agree on [OPENAI_API_KEY] and [OPENAI_ORG_ID] give the same outcome,
    whatever else they hold. *)
Theorem openai_reads_only_its_keys (c1 c2 : gmap string (option string)) :
  c1 !! "OPENAI_API_KEY" = c2 !! "OPENAI_API_KEY" →
  c1 !! "OPENAI_ORG_ID" = c2 !! "OPENAI_ORG_ID" →
  openai_settings_from_dot_env c1 = openai_settings_from_dot_env c2.
Proof.
  intros Hkey Horg. rewrite !openai_outcome_by_key.
  by rewrite (get_ext c1 c2 _ _ Hkey), (get_ext c1 c2 _ _ Horg).
Qed.

Lemma openai_reads_only_its_keys_witness :
  openai_settings_from_dot_env openai_full
  = openai_settings_from_dot_env both_providers.
Proof.
  apply (openai_reads_only_its_keys openai_full both_providers);
    vm_compute; reflexivity.
Defined.

(** X5: setting [OPENAI_API_KEY] in any source makes the resolver return
    that key, with the organization id the source had; removing the key
    from any source makes the resolver fail. *)
Theorem openai_set_and_unset_api_key
    (config : gmap string (option string)) (k : string) :
  openai_settings_from_dot_env (<["OPENAI_API_KEY" := Some k]> config)
  = Return (Some k, get config "OPENAI_ORG_ID" None)
  ∧ openai_settings_from_dot_env (delete "OPENAI_API_KEY" config)
    = Raise (AssertionError "OpenAI API key not found in .env file").
Proof.
  rewrite !openai_outcome_by_key.
  rewrite get_insert_eq, get_delete_eq.
  by rewrite get_insert_ne.
Qed.

(** Case analysis on the three lookups of the Azure resolver. *)
Ltac azure_cases config :=
  rewrite ?azure_outcome;
  destruct (get config "AZURE_OPENAI_DEPLOYMENT_NAME" None) as [?d|];
  destruct (get config "AZURE_OPENAI_API_KEY" None) as [?k|];
  destruct (get config "AZURE_OPENAI_ENDPOINT" None) as [?e|].

(** X6: every result of the Azure resolver is a triple of strings, for
    both values of the flag: the api key and the endpoint are the ones of
    the source, and the deployment name is the one of the source, or [""]
    when the source has none (which the flag must then allow). *)
Theorem azure_result_is_three_strings
    (config : gmap string (option string)) (incl : bool)
    (dep key endpoint : option string) :
  azure_openai_settings_from_dot_env config incl
  = Return (dep, key, endpoint) →
  dep = Some (default "" (get config "AZURE_OPENAI_DEPLOYMENT_NAME" None))
  ∧ key = get config "AZURE_OPENAI_API_KEY" None
  ∧ endpoint = get config "AZURE_OPENAI_ENDPOINT" None
  ∧ is_Some key ∧ is_Some endpoint
  ∧ (incl = true → dep = get config "AZURE_OPENAI_DEPLOYMENT_NAME" None).
Proof.
  azure_cases config; destruct incl; intros [= <- <- <-];
    repeat split; eauto; done.
Qed.

Lemma azure_result_is_three_strings_witness :
  Some "" = Some (default "" (get azure_no_deployment
                                "AZURE_OPENAI_DEPLOYMENT_NAME" None))
  ∧ Some "az-key" = get azure_no_deployment "AZURE_OPENAI_API_KEY" None
  ∧ Some "https://x.openai.azure.com/"
    = get azure_no_deployment "AZURE_OPENAI_ENDPOINT" None
  ∧ is_Some (Some "az-key")
  ∧ is_Some (Some "https://x.openai.azure.com/")
  ∧ (false = true →
     Some "" = get azure_no_deployment "AZURE_OPENAI_DEPLOYMENT_NAME" None).
Proof.
  apply (azure_result_is_three_strings azure_no_deployment false).
  vm_compute. reflexivity.
Defined.

(** X7: turning the flag off never breaks a resolution: what the
    resolver returns with [include_deployment=True] it returns unchanged
    with [include_deployment=False]. *)
Theorem azure_flag_off_keeps_results
    (config : gmap string (option string))
    (r : option string * option string * option string) :
  azure_openai_settings_from_dot_env config true = Return r →
  azure_openai_settings_from_dot_env config false = Return r.
Proof. azure_cases config; done. Qed.

Lemma azure_flag_off_keeps_results_witness :
  azure_openai_settings_from_dot_env azure_full false
  = Return (Some "gpt-35", Some "az-key", Some "https://x.openai.azure.com/").
Proof.
  apply (azure_flag_off_keeps_results azure_full).
  vm_compute. reflexivity.
Defined.

(** X8: the flag changes the outcome exactly when the deployment name is
    absent: the two calls agree, on the result or on the error, if and
    only if the source has a deployment name. *)
Theorem azure_flag_matters_iff_deployment_absent
    (config : gmap string (option string)) :
  azure_openai_settings_from_dot_env config true
  = azure_openai_settings_from_dot_env config false
  ↔ is_Some (get config "AZURE_OPENAI_DEPLOYMENT_NAME" None).
Proof.
  azure_cases config; split;
    solve [eauto | done | intros [? [=]]].
Qed.

(** X9: with [include_deployment=False] the resolver succeeds if and
    only if the api key and the endpoint are present, whatever the
    deployment name is; and then it returns them with the deployment name
    of the source, or [""]. *)
Theorem azure_flag_off_succeeds_iff
    (config : gmap string (option string)) :
  ((∃ r, azure_openai_settings_from_dot_env config false = Return r)
   ↔ is_Some (get config "AZURE_OPENAI_API_KEY" None)
     ∧ is_Some (get config "AZURE_OPENAI_ENDPOINT" None))
  ∧ (∀ k e : string,
       get config "AZURE_OPENAI_API_KEY" None = Some k →
       get config "AZURE_OPENAI_ENDPOINT" None = Some e →
       azure_openai_settings_from_dot_env config false
       = Return (Some (default ""
                         (get config "AZURE_OPENAI_DEPLOYMENT_NAME" None)),
                 Some k, Some e)).
Proof.
  split.
  - azure_cases config; split;
      solve [eauto | intros [? [=]] | intros [[? [=]] _]
            | intros [_ [? [=]]]].
  - intros k e Hk He. rewrite azure_outcome, Hk, He.
    by destruct (get config "AZURE_OPENAI_DEPLOYMENT_NAME" None).
Qed.

Lemma azure_flag_off_succeeds_iff_witness :
  azure_openai_settings_from_dot_env azure_no_deployment false
  = Return (Some (default ""
                    (get azure_no_deployment
                       "AZURE_OPENAI_DEPLOYMENT_NAME" None)),
            Some "az-key", Some "https://x.openai.azure.com/").
Proof.
  destruct (azure_flag_off_succeeds_iff azure_no_deployment) as [_ Hok].
  apply Hok; vm_compute; reflexivity.
Defined.

(** X10: with [include_deployment=False] the deployment name is never
    the reported failure: an exception the resolver raises is the
    assertion error of the api key or the one of the endpoint. *)
Theorem azure_flag_off_never_reports_deployment
    (config : gmap string (option string)) (exn : exception) :
  azure_openai_settings_from_dot_env config false = Raise exn →
  exn = AssertionError "Azure OpenAI API key not found in .env file"
  ∨ exn = AssertionError "Azure OpenAI endpoint not found in .env file".
Proof. azure_cases config; intros [= <-]; eauto. Qed.

Lemma azure_flag_off_never_reports_deployment_witness :
  AssertionError "Azure OpenAI API key not found in .env file"
  = AssertionError "Azure OpenAI API key not found in .env file"
  ∨ AssertionError "Azure OpenAI API key not found in .env file"
    = AssertionError "Azure OpenAI endpoint not found in .env file".
Proof.
  apply (azure_flag_off_never_reports_deployment ∅).
  vm_compute. reflexivity.
Defined.

(** X11: with [include_deployment=False] a caller cannot tell a source
    without deployment name from one that sets it to the empty string or
    lists it without a value: the three give the same outcome. *)
Theorem azure_flag_off_empty_deployment_is_absent
    (config : gmap string (option string)) :
  azure_openai_settings_from_dot_env
    (<["AZURE_OPENAI_DEPLOYMENT_NAME" := Some ""]> config) false
  = azure_openai_settings_from_dot_env
      (delete "AZURE_OPENAI_DEPLOYMENT_NAME" config) false
  ∧ azure_openai_settings_from_dot_env
      (<["AZURE_OPENAI_DEPLOYMENT_NAME" := None]> config) false
    = azure_openai_settings_from_dot_env
        (delete "AZURE_OPENAI_DEPLOYMENT_NAME" config) false.
Proof.
  rewrite !azure_outcome.
  rewrite !get_insert_eq, !get_delete_eq.
  rewrite !get_insert_ne, !get_delete_ne by done.
  split;
    by destruct (get config "AZURE_OPENAI_API_KEY" None) as [k|],
         (get config "AZURE_OPENAI_ENDPOINT" None) as [e|].
Qed.

(** X12: the Azure resolver reads its three keys only: two sources that
    agree on them give the same outcome for either value of the flag. *)
Theorem azure_reads_only_its_keys
    (c1 c2 : gmap string (option string)) (incl : bool) :
  c1 !! "AZURE_OPENAI_DEPLOYMENT_NAME" = c2 !! "AZURE_OPENAI_DEPLOYMENT_NAME" →
  c1 !! "AZURE_OPENAI_API_KEY" = c2 !! "AZURE_OPENAI_API_KEY" →
  c1 !! "AZURE_OPENAI_ENDPOINT" = c2 !! "AZURE_OPENAI_ENDPOINT" →
  azure_openai_settings_from_dot_env c1 incl
  = azure_openai_settings_from_dot_env c2 incl.
Proof.
  intros Hd Hk He. rewrite !azure_outcome.
  by rewrite (get_ext c1 c2 _ _ Hd), (get_ext c1 c2 _ _ Hk),
       (get_ext c1 c2 _ _ He).
Qed.

Lemma azure_reads_only_its_keys_witness :
  azure_openai_settings_from_dot_env azure_full true
  = azure_openai_settings_from_dot_env both_providers true.
Proof.
  apply (azure_reads_only_its_keys azure_full both_providers true);
    vm_compute; reflexivity.
Defined.

(** X13: setting the three Azure keys in any source, in the order
    endpoint, api key, deployment name, makes the resolver return exactly
    these three values for either value of the flag; removing the api key
    or the endpoint afterwards makes it fail for either value. *)
Theorem azure_set_and_unset_keys
    (config : gmap string (option string)) (d k e : string) (incl : bool) :
  let full :=
    <["AZURE_OPENAI_DEPLOYMENT_NAME" := Some d]>
      (<["AZURE_OPENAI_API_KEY" := Some k]>
         (<["AZURE_OPENAI_ENDPOINT" := Some e]> config)) in
  azure_openai_settings_from_dot_env full incl
  = Return (Some d, Some k, Some e)
  ∧ azure_openai_settings_from_dot_env
      (delete "AZURE_OPENAI_API_KEY" full) incl
    = Raise (AssertionError "Azure OpenAI API key not found in .env file")
  ∧ azure_openai_settings_from_dot_env
      (delete "AZURE_OPENAI_ENDPOINT" full) incl
    = Raise (AssertionError "Azure OpenAI endpoint not found in .env file").
Proof.
  intros full. unfold full. rewrite !azure_outcome.
  repeat (rewrite ?get_delete_eq, ?get_insert_eq;
          rewrite ?get_delete_ne, ?get_insert_ne by done).
  by destruct incl.
Qed.

(** ** Further properties of [WaitSkill.wait] *)

Section WaitMore.

Context (float : string → result spec_float).

(** The run of [wait] as a function of what [float] does. *)
Lemma wait_outcome (s : string) :
  wait float s
  = match float s with
    | Return x => ([Sleep (max_0 x)], Return tt)
    | Raise (ValueError _) =>
        ([], Raise (ValueError "seconds text must be a number"))
    | Raise exn => ([], Raise exn)
    end.
Proof. unfold wait. by destruct (float s) as [x|[]]. Qed.

(** X15: [asyncio.sleep] is never called with a negative delay: the
    delay of every sleep in a run of [wait] is the [int] [0], or a float
    [x] for which [0 > x] is false (NaN included). *)
Theorem wait_never_sleeps_negative (s : string) (d : number) :
  Sleep d ∈ (wait float s).1 →
  d = Int 0 ∨ ∃ x : spec_float, d = Float x ∧ int0_gt x = false.
Proof.
  rewrite wait_outcome.
  destruct (float s) as [x|[]]; cbn; try (by intros ?%elem_of_nil).
  intros [= ->]%list_elem_of_singleton. unfold max_0.
  destruct (int0_gt x) eqn:Hneg; eauto.
Qed.

End WaitMore.

Lemma wait_never_sleeps_negative_witness :
  Int 0 = Int 0 ∨ ∃ x : spec_float, Int 0 = Float x ∧ int0_gt x = false.
Proof.
  apply (wait_never_sleeps_negative float_sample "-3" (Int 0)).
  vm_compute. apply list_elem_of_here.
Defined.
